(** * Encurtador de URL: a shallow embedding of [main.py]

    The Flask application keeps three pieces of process-wide state: the
    dictionary [url_db] (short code -> destination), and the two Prometheus
    counters [links_criados_total] and [redirecionamentos_total].  A fourth
    piece, hidden in Python's [random] module, is the state of the random
    source.  The three route handlers are modelled as functions from a
    state to a response and a new state.  The latency histogram and the
    [/metrics] endpoint never touch [url_db] or the two counters and are
    left out. *)

From Stdlib Require Import ZArith Ascii String Lia.
From stdpp Require Import gmap strings list fin_maps.

Set Warnings "-register-all".
Local Open Scope string_scope.

(** ** Python values, as [request.get_json()] produces them *)

(** A decoded JSON document.  Numbers are kept as integers: the handlers
    only ever ask of a number whether it is zero and whether it is a
    container.  A [PyDict] lists the items of the dict; its keys are
    strings and pairwise distinct, and a lookup takes the first item that
    carries the key. *)
Inductive pyval :=
| PyNone
| PyBool (b : bool)
| PyInt (z : Z)
| PyStr (s : string)
| PyList (l : list pyval)
| PyDict (d : list (string * pyval)).

(** Exceptions that escape a handler; Flask answers them with 500. *)
Inductive exn := TypeError | KeyError | IndexError.

Inductive res (A : Type) :=
| Ok (a : A)
| Raise (e : exn).
Arguments Ok {A} a.
Arguments Raise {A} e.

(** [bool(v)] *)
Definition truthy (v : pyval) : bool :=
  match v with
  | PyNone => false
  | PyBool b => b
  | PyInt z => negb (z =? 0)%Z
  | PyStr s => negb (String.eqb s "")
  | PyList l => match l with [] => false | _ => true end
  | PyDict d => match d with [] => false | _ => true end
  end.

(** [v == key] for a string [key] *)
Definition eq_str (key : string) (v : pyval) : bool :=
  match v with
  | PyStr s => String.eqb s key
  | _ => false
  end.

Definition dict_get (key : string) (d : list (string * pyval)) : option pyval :=
  snd <$> List.find (fun kv => String.eqb (fst kv) key) d.

(** [key in v]: membership in a dict's keys or a list's elements, the
    substring test on a string, and [TypeError] on anything else. *)
Definition py_contains (key : string) (v : pyval) : res bool :=
  match v with
  | PyDict d => Ok (match dict_get key d with Some _ => true | None => false end)
  | PyList l => Ok (existsb (eq_str key) l)
  | PyStr s => Ok (match String.index 0 key s with Some _ => true | None => false end)
  | _ => Raise TypeError
  end.

(** [v[key]] for a string [key]: only a dict can be indexed by a string
    ([KeyError] when the key is missing); a list or a string wants an
    integer index, and the other values cannot be indexed at all. *)
Definition py_getitem (v : pyval) (key : string) : res pyval :=
  match v with
  | PyDict d => match dict_get key d with Some x => Ok x | None => Raise KeyError end
  | _ => Raise TypeError
  end.

(** ** The code generator *)

(** [string.ascii_letters + string.digits] *)
Definition ascii_letters : string :=
  "abcdefghijklmnopqrstuvwxyzABCDEFGHIJKLMNOPQRSTUVWXYZ".
Definition digits : string := "0123456789".
Definition caracteres : list ascii :=
  list_ascii_of_string (ascii_letters ++ digits).

(** The character classes the alphabet is meant to cover, by code point. *)
Definition is_ascii_letter (ch : ascii) : bool :=
  let n := nat_of_ascii ch in
  ((97 <=? n)%nat && (n <=? 122)%nat) || ((65 <=? n)%nat && (n <=? 90)%nat).
Definition is_digit (ch : ascii) : bool :=
  let n := nat_of_ascii ch in (48 <=? n)%nat && (n <=? 57)%nat.

Definition alfanumerico (ch : ascii) : bool :=
  is_ascii_letter ch || is_digit ch.

Section Handlers.

(** The random source of the process: [tape i] is its [i]-th draw, and
    the [i]-th call of [random.choice] picks the element of index
    [tape i mod len(seq)] (what [randbelow(len(seq))] returns is some
    index below [len(seq)]).  The number of draws made so far is part of
    the state ([rng_pos]). *)
Variable tape : nat -> nat.

(** Computations that draw from the random source and may raise. *)
Definition R (A : Type) : Type := nat -> res A * nat.

Definition ret {A} (a : A) : R A := fun pos => (Ok a, pos).
Definition bind {A B} (m : R A) (k : A -> R B) : R B :=
  fun pos =>
    match m pos with
    | (Ok a, pos') => k a pos'
    | (Raise e, pos') => (Raise e, pos')
    end.

Notation "'let*' x ':=' m 'in' k" := (bind m (fun x => k))
  (at level 10, x name, m at level 100, k at level 200).

(** [random.choice(seq)], that is [seq[randbelow(len(seq))]]: one draw;
    [IndexError] on an empty sequence. *)
Definition random_choice (seq : list ascii) : R ascii :=
  fun pos =>
    match seq !! (tape pos mod length seq) with
    | Some ch => (Ok ch, S pos)
    | None => (Raise IndexError, pos)
    end.

(** [''.join(random.choice(caracteres) for _ in range(n))] *)
Fixpoint join_choices (n : nat) : R string :=
  match n with
  | O => ret ""
  | S n' =>
      let* ch := random_choice caracteres in
      let* s := join_choices n' in
      ret (String ch s)
  end.

(** [def gerar_codigo_curto(tamanho=6)]; [None] is the call without an
    argument.  [range] of a negative number is empty. *)
Definition gerar_codigo_curto (tamanho : option Z) : R string :=
  join_choices (Z.to_nat (default 6%Z tamanho)).

(** The [k]-th candidate code of a call that starts with the cursor at
    [pos]: every candidate takes six draws. *)
Definition candidato (pos k : nat) : string :=
  match gerar_codigo_curto None (pos + 6 * k) with
  | (Ok c, _) => c
  | (Raise _, _) => ""
  end.

(** ** Process state *)

Record state := State {
  url_db : gmap string pyval;
  links_criados_total : nat;
  redirecionamentos_total : nat;
  rng_pos : nat
}.

(** What a handler reads of the request. *)
Record request := Request {
  host_url : string;
  get_json : pyval
}.

(** What a handler answers. [Created u h c] is the 201 reply whose body
    is [{"url_longa": u, "url_curta": h ++ c}] (see [url_curta]). *)
Inductive response :=
| Created (url_longa : pyval) (host : string) (codigo_curto : string)
| BadRequest
| Redirect (location : pyval)
| NotFound
| Links (m : gmap string pyval)
| ServerError (e : exn).

Definition status (r : response) : Z :=
  match r with
  | Created _ _ _ => 201
  | BadRequest => 400
  | Redirect _ => 302
  | NotFound => 404
  | Links _ => 200
  | ServerError _ => 500
  end.

Definition url_curta (r : response) : option string :=
  match r with
  | Created _ h c => Some (h ++ c)
  | _ => None
  end.

(** ** [POST /encurtar] *)

(** [not dados or 'url_longa' not in dados] *)
Definition sem_url_longa (dados : pyval) : res bool :=
  if truthy dados then
    match py_contains "url_longa" dados with
    | Ok b => Ok (negb b)
    | Raise e => Raise e
    end
  else Ok true.

(** [while codigo_curto in url_db: codigo_curto = gerar_codigo_curto()].
    The loop has no bound in the source; [fuel] bounds the number of
    iterations of the model, and [None] says the loop is still running
    when the fuel is spent. *)
Fixpoint enquanto_colide (fuel : nat) (db : gmap string pyval)
    (codigo_curto : string) (pos : nat) : option (res string * nat) :=
  match db !! codigo_curto with
  | None => Some (Ok codigo_curto, pos)
  | Some _ =>
      match fuel with
      | O => None
      | S fuel' =>
          match gerar_codigo_curto None pos with
          | (Ok c, pos') => enquanto_colide fuel' db c pos'
          | (Raise e, pos') => Some (Raise e, pos')
          end
      end
  end.

Definition set_rng_pos (pos : nat) (st : state) : state :=
  State (url_db st) (links_criados_total st) (redirecionamentos_total st) pos.

Definition encurtar_url (fuel : nat) (req : request) (st : state)
    : option (response * state) :=
  let dados := get_json req in
  match sem_url_longa dados with
  | Raise e => Some (ServerError e, st)
  | Ok true => Some (BadRequest, st)
  | Ok false =>
      match py_getitem dados "url_longa" with
      | Raise e => Some (ServerError e, st)
      | Ok url_longa =>
          match gerar_codigo_curto None (rng_pos st) with
          | (Raise e, pos) => Some (ServerError e, set_rng_pos pos st)
          | (Ok codigo_curto, pos) =>
              match enquanto_colide fuel (url_db st) codigo_curto pos with
              | None => None
              | Some (Raise e, pos') => Some (ServerError e, set_rng_pos pos' st)
              | Some (Ok codigo_curto, pos') =>
                  Some (Created url_longa (host_url req) codigo_curto,
                        State (<[codigo_curto := url_longa]> (url_db st))
                              (S (links_criados_total st))
                              (redirecionamentos_total st)
                              pos')
              end
          end
      end
  end.

(** ** [GET /<codigo_curto>] *)

Definition redirecionar (codigo_curto : string) (st : state)
    : response * state :=
  match url_db st !! codigo_curto with
  | Some url_longa =>
      if truthy url_longa then
        (Redirect url_longa,
         State (url_db st) (links_criados_total st)
               (S (redirecionamentos_total st)) (rng_pos st))
      else (NotFound, st)
  | None => (NotFound, st)
  end.

(** ** [GET /api/links] *)

Definition listar_links (st : state) : response * state :=
  (Links (url_db st), st).

(** ** Runs of the service *)

Inductive chamada :=
| Encurtar (req : request)
| Redirecionar (codigo_curto : string)
| ListarLinks.

Definition atender (fuel : nat) (c : chamada) (st : state)
    : option (response * state) :=
  match c with
  | Encurtar req => encurtar_url fuel req st
  | Redirecionar codigo => Some (redirecionar codigo st)
  | ListarLinks => Some (listar_links st)
  end.

(** The requests of [cs] served one after the other; the replies come
    back in the same order. *)
Fixpoint executar (fuel : nat) (cs : list chamada) (st : state)
    : option (list response * state) :=
  match cs with
  | [] => Some ([], st)
  | c :: cs' =>
      match atender fuel c st with
      | None => None
      | Some (r, st') =>
          match executar fuel cs' st' with
          | None => None
          | Some (rs, st'') => Some (r :: rs, st'')
          end
      end
  end.

(** A fresh process. *)
Definition estado_inicial (pos : nat) : state := State ∅ 0 0 pos.

End Handlers.

(** ** Counting replies *)

Definition criado (r : response) : bool :=
  match r with Created _ _ _ => true | _ => false end.
Definition redirecionado (r : response) : bool :=
  match r with Redirect _ => true | _ => false end.
Definition conta (p : response -> bool) (rs : list response) : nat :=
  length (List.filter p rs).

(** The codes of the 201 replies of a run, in the order of the run. *)
Definition codigos (rs : list response) : list string :=
  omap (fun r => match r with Created _ _ c => Some c | _ => None end) rs.

(** Six characters, each a letter or a decimal digit. *)
Definition bem_formado (c : string) : bool :=
  (String.length c =? 6)%nat && forallb alfanumerico (list_ascii_of_string c).

(** ** The generator in closed form *)

(** The characters [join_choices] picks for [n] draws from position
    [pos] on, one per draw ([join_choices_escolhas] below). *)
Definition escolhas (tape : nat -> nat) (n pos : nat) : list ascii :=
  List.map (fun i => nth (tape i mod length caracteres) caracteres "a"%char)
           (seq pos n).

(** The position of the first occurrence of [ch] in [l] (the length of
    [l] when there is none). *)
Fixpoint indice_em (l : list ascii) (ch : ascii) : nat :=
  match l with
  | [] => O
  | x :: l' => if Ascii.eqb x ch then O else S (indice_em l' ch)
  end.

(** A random source whose draws from position [pos] on spell [s]. *)
Definition tape_de (s : string) (pos : nat) : nat -> nat :=
  fun i => indice_em caracteres (nth (i - pos) (list_ascii_of_string s) "a"%char).

(** ** Concrete requests and random sources used in the examples *)

Definition corpo (url_longa : pyval) : pyval := PyDict [("url_longa", url_longa)].
Definition host : string := "http://localhost:5000/".
Definition pedido (url_longa : pyval) : request := Request host (corpo url_longa).
Definition url_a : pyval := PyStr "https://example.com/a".

(** A source whose successive candidates are all different
    (["ahovCJ"], ["QX4bip"], ...), and one that only ever yields
    ["aaaaaa"]. *)
Definition tape_sete : nat -> nat := fun i => (i * 7)%nat.
Definition tape_zero : nat -> nat := fun _ => 0%nat.

(** A source whose second candidate repeats the first (["ahovCJ"] twice)
    and whose third is new (["wDKRY5"]): the second shorten of a fresh
    process collides once. *)
Definition tape_repete : nat -> nat :=
  fun i => if (i <? 6)%nat then (i * 7)%nat
           else if (i <? 12)%nat then ((i - 6) * 7)%nat
           else (i * 7)%nat.

(** The process after the two shortens of [url_a] on [tape_repete]. *)
Definition estado_dois : state :=
  State (<["wDKRY5" := url_a]> (<["ahovCJ" := url_a]> ∅)) 2 0 18.

(** A fresh process after one successful shorten of [u] that got the
    code [c]. *)
Definition estado_com (c : string) (u : pyval) : state :=
  State (<[c := u]> ∅) 1 0 6.

(** A run with two successful shortens (the second of an empty
    destination), one rejected shorten, one successful lookup and two
    failed ones. *)
Definition corrida : list chamada :=
  [Encurtar (pedido url_a); Redirecionar "ahovCJ"; Redirecionar "zzzzzz";
   Encurtar (Request host PyNone); Encurtar (pedido (PyStr ""));
   Redirecionar "QX4bip"].
Definition respostas : list response :=
  [Created url_a host "ahovCJ"; Redirect url_a; NotFound; BadRequest;
   Created (PyStr "") host "QX4bip"; NotFound].
Definition estado_final : state :=
  State (<["QX4bip" := PyStr ""]> (<["ahovCJ" := url_a]> ∅)) 2 1 12.

Arguments ret {A} a pos /.
Arguments bind {A B} m k pos /.

(** * The code generator *)

Lemma caracteres_length : length caracteres = 62%nat.
Proof. reflexivity. Qed.

Lemma caracteres_NoDup : NoDup caracteres.
Proof. apply (bool_decide_unpack _). vm_compute. exact I. Qed.

Lemma caracteres_existsb (ch : ascii) :
  existsb (Ascii.eqb ch) caracteres = alfanumerico ch.
Proof. destruct ch as [[] [] [] [] [] [] [] []]; reflexivity. Qed.

Lemma caracteres_alfanumerico (ch : ascii) :
  ch ∈ caracteres ↔ alfanumerico ch = true.
Proof.
  rewrite <- caracteres_existsb, existsb_exists, list_elem_of_In.
  split.
  - intros Hin. exists ch. split; [exact Hin | apply Ascii.eqb_refl].
  - intros (x & Hin & Heq). apply Ascii.eqb_eq in Heq. now subst x.
Qed.

Section Generator.

Variable tape : nat -> nat.

Lemma random_choice_caracteres (pos : nat) :
  ∃ ch, random_choice tape caracteres pos = (Ok ch, S pos) ∧ ch ∈ caracteres.
Proof.
  unfold random_choice.
  assert (Hlt : (tape pos mod length caracteres < length caracteres)%nat).
  { apply Nat.mod_upper_bound. rewrite caracteres_length. lia. }
  destruct (lookup_lt_is_Some_2 caracteres _ Hlt) as [ch Hch].
  exists ch. rewrite Hch. split; [reflexivity |].
  eapply list_elem_of_lookup_2, Hch.
Qed.

Lemma join_choices_ok (n pos : nat) :
  ∃ s, join_choices tape n pos = (Ok s, (pos + n)%nat)
       ∧ String.length s = n
       ∧ Forall (λ ch, ch ∈ caracteres) (list_ascii_of_string s).
Proof.
  revert pos. induction n as [|n IH]; intros pos.
  - exists "". simpl. rewrite Nat.add_0_r. repeat split. constructor.
  - destruct (random_choice_caracteres pos) as (ch & Hch & Hin).
    destruct (IH (S pos)) as (s & Hs & Hlen & Hall).
    exists (String ch s). simpl. rewrite Hch, Hs. repeat split.
    + f_equal. lia.
    + simpl. now rewrite Hlen.
    + constructor; assumption.
Qed.

Lemma gerar_codigo_curto_ok (tamanho : option Z) (pos : nat) :
  ∃ s, gerar_codigo_curto tape tamanho pos
         = (Ok s, (pos + Z.to_nat (default 6%Z tamanho))%nat)
       ∧ String.length s = Z.to_nat (default 6%Z tamanho)
       ∧ Forall (λ ch, ch ∈ caracteres) (list_ascii_of_string s).
Proof. apply join_choices_ok. Qed.

(** C6: for every length [n >= 0] the generator returns a string of exactly
    [n] characters, each a letter (either case) or a decimal digit; these
    characters form an alphabet of 62 distinct characters; called without
    an argument the generator uses length 6. *)
Theorem gerar_codigo_curto_alfabeto (n : Z) (pos : nat) :
  (0 ≤ n)%Z →
  (∃ codigo,
      gerar_codigo_curto tape (Some n) pos = (Ok codigo, (pos + Z.to_nat n)%nat)
      ∧ Z.of_nat (String.length codigo) = n
      ∧ Forall (λ ch, ch ∈ caracteres ∧ alfanumerico ch = true)
               (list_ascii_of_string codigo))
  ∧ length caracteres = 62%nat
  ∧ NoDup caracteres
  ∧ (∀ ch, ch ∈ caracteres ↔ is_ascii_letter ch = true ∨ is_digit ch = true)
  ∧ gerar_codigo_curto tape None pos = gerar_codigo_curto tape (Some 6%Z) pos.
Proof.
  intros Hn. split; [| split; [| split; [| split]]].
  - destruct (gerar_codigo_curto_ok (Some n) pos) as (s & Hs & Hlen & Hall).
    simpl in Hs, Hlen. exists s. split; [exact Hs | split].
    + rewrite Hlen. apply Z2Nat.id, Hn.
    + eapply Forall_impl; [exact Hall |].
      intros ch Hin. split; [exact Hin | now apply caracteres_alfanumerico].
  - apply caracteres_length.
  - apply caracteres_NoDup.
  - intros ch. rewrite caracteres_alfanumerico. unfold alfanumerico.
    apply orb_true_iff.
  - reflexivity.
Qed.

End Generator.

(** The generator on a concrete tape, length 4. *)
Lemma gerar_codigo_curto_alfabeto_witness :
  (∃ codigo,
      gerar_codigo_curto tape_sete (Some 4%Z) 0 = (Ok codigo, (0 + Z.to_nat 4)%nat)
      ∧ Z.of_nat (String.length codigo) = 4%Z
      ∧ Forall (λ ch, ch ∈ caracteres ∧ alfanumerico ch = true)
               (list_ascii_of_string codigo))
  ∧ length caracteres = 62%nat
  ∧ NoDup caracteres
  ∧ (∀ ch, ch ∈ caracteres ↔ is_ascii_letter ch = true ∨ is_digit ch = true)
  ∧ gerar_codigo_curto tape_sete None 0
    = gerar_codigo_curto tape_sete (Some 6%Z) 0.
Proof. apply (gerar_codigo_curto_alfabeto tape_sete 4%Z 0%nat). lia. Defined.

(** * The collision loop *)

Section Loop.

Variable tape : nat -> nat.

Lemma gerar_padrao (pos : nat) :
  gerar_codigo_curto tape None pos = (Ok (candidato tape pos 0), (pos + 6)%nat).
Proof.
  unfold candidato. rewrite Nat.mul_0_r, Nat.add_0_r.
  destruct (gerar_codigo_curto_ok tape None pos) as (s & Hs & _).
  now rewrite Hs.
Qed.

Lemma candidato_shift (pos k : nat) :
  candidato tape (pos + 6) k = candidato tape pos (S k).
Proof.
  unfold candidato.
  now replace (pos + 6 + 6 * k)%nat with (pos + 6 * S k)%nat by lia.
Qed.

Lemma candidato_length (pos k : nat) :
  String.length (candidato tape pos k) = 6%nat.
Proof.
  unfold candidato.
  destruct (gerar_codigo_curto_ok tape None (pos + 6 * k)) as (s & Hs & Hlen & _).
  now rewrite Hs.
Qed.

Lemma enquanto_colide_eq (fuel : nat) (db : gmap string pyval) (c : string) (pos : nat) :
  enquanto_colide tape fuel db c pos =
  match db !! c with
  | None => Some (Ok c, pos)
  | Some _ =>
      match fuel with
      | O => None
      | S fuel' => enquanto_colide tape fuel' db (candidato tape pos 0) (pos + 6)%nat
      end
  end.
Proof.
  destruct fuel; simpl; [reflexivity |].
  destruct (db !! c); [| reflexivity]. now rewrite gerar_padrao.
Qed.

(** What the loop returns, when it returns: the first candidate that is
    not a key of the store, after [k] collisions. *)
Lemma enquanto_colide_inv (fuel : nat) (db : gmap string pyval) (pos : nat) :
  ∀ r pos',
    enquanto_colide tape fuel db (candidato tape pos 0) (pos + 6)%nat = Some (r, pos') →
    ∃ k, (k ≤ fuel)%nat
         ∧ r = Ok (candidato tape pos k)
         ∧ pos' = (pos + 6 * S k)%nat
         ∧ db !! candidato tape pos k = None
         ∧ ∀ j, (j < k)%nat → is_Some (db !! candidato tape pos j).
Proof.
  revert pos. induction fuel as [|fuel IH]; intros pos r pos' H;
    rewrite enquanto_colide_eq in H;
    destruct (db !! candidato tape pos 0) as [v|] eqn:Hc.
  - discriminate.
  - inversion H; subst. exists 0%nat. split_and!; [lia | done | lia | exact Hc | lia].
  - apply IH in H as (k & Hk & -> & -> & Hfree & Hbound).
    exists (S k). rewrite <- !candidato_shift.
    split_and!; [lia | done | lia | exact Hfree |].
    intros [|j] Hj; [rewrite Hc; eauto |].
    rewrite <- candidato_shift. apply Hbound. lia.
  - inversion H; subst. exists 0%nat. split_and!; [lia | done | lia | exact Hc | lia].
Qed.

(** The loop returns as soon as the fuel covers the first free candidate. *)
Lemma enquanto_colide_termina (db : gmap string pyval) (k : nat) :
  ∀ fuel pos,
    db !! candidato tape pos k = None → (k ≤ fuel)%nat →
    ∃ c pos', enquanto_colide tape fuel db (candidato tape pos 0) (pos + 6)%nat
              = Some (Ok c, pos').
Proof.
  induction k as [|k IH]; intros fuel pos Hfree Hle; rewrite enquanto_colide_eq.
  - rewrite Hfree. eauto.
  - destruct (db !! candidato tape pos 0); [| eauto].
    destruct fuel as [|fuel]; [lia |].
    apply IH; [| lia]. now rewrite candidato_shift.
Qed.

Lemma enquanto_colide_mono (db : gmap string pyval) (fuel fuel' : nat) :
  (fuel ≤ fuel')%nat →
  ∀ c pos x, enquanto_colide tape fuel db c pos = Some x →
             enquanto_colide tape fuel' db c pos = Some x.
Proof.
  revert fuel'. induction fuel as [|fuel IH]; intros fuel' Hle c pos x H;
    rewrite enquanto_colide_eq in H; rewrite enquanto_colide_eq;
    destruct (db !! c); try discriminate; try exact H.
  destruct fuel' as [|fuel']; [lia |]. apply IH; [lia | exact H].
Qed.

End Loop.

(** * The handlers *)

Lemma sem_url_longa_dict (d : list (string * pyval)) :
  sem_url_longa (PyDict d)
  = Ok (match dict_get "url_longa" d with Some _ => false | None => true end).
Proof.
  destruct d as [|kv d]; [reflexivity |].
  unfold sem_url_longa. simpl truthy. cbv iota. unfold py_contains.
  now destruct (dict_get "url_longa" (kv :: d)).
Qed.

Lemma sem_url_longa_falsy (dados : pyval) :
  truthy dados = false → sem_url_longa dados = Ok true.
Proof. unfold sem_url_longa. now intros ->. Qed.

Lemma sem_url_longa_truthy (dados : pyval) (x : res bool) :
  sem_url_longa dados = x → x ≠ Ok true → truthy dados = true.
Proof.
  unfold sem_url_longa. destruct (truthy dados); [done |].
  intros <- Hx. now destruct Hx.
Qed.

Section Servico.

Variable tape : nat -> nat.

(** The three ways [encurtar_url] can answer, and the state it leaves. *)
Lemma encurtar_url_inv (fuel : nat) (req : request) (st : state) r st' :
  encurtar_url tape fuel req st = Some (r, st') →
  (sem_url_longa (get_json req) = Ok true ∧ r = BadRequest ∧ st' = st)
  ∨ ((∀ d, get_json req ≠ PyDict d) ∧ truthy (get_json req) = true
     ∧ r = ServerError TypeError ∧ st' = st)
  ∨ (∃ d u k,
        get_json req = PyDict d ∧ dict_get "url_longa" d = Some u
        ∧ (k ≤ fuel)%nat
        ∧ r = Created u (host_url req) (candidato tape (rng_pos st) k)
        ∧ url_db st !! candidato tape (rng_pos st) k = None
        ∧ (∀ j, (j < k)%nat → is_Some (url_db st !! candidato tape (rng_pos st) j))
        ∧ st' = State (<[candidato tape (rng_pos st) k := u]> (url_db st))
                      (S (links_criados_total st))
                      (redirecionamentos_total st)
                      (rng_pos st + 6 * S k)).
Proof.
  unfold encurtar_url. intros H.
  destruct (sem_url_longa (get_json req)) as [[|] | e] eqn:Hsem.
  - left. now inversion H.
  - right. pose proof (sem_url_longa_truthy _ _ Hsem (ltac:(discriminate))) as Ht.
    destruct (get_json req) as [| b | z | s | l | d] eqn:Hd;
      try (unfold sem_url_longa in Hsem; rewrite Ht in Hsem; discriminate Hsem).
    + left. simpl in H. inversion H. split_and!; done.
    + left. simpl in H. inversion H. split_and!; done.
    + right. rewrite sem_url_longa_dict in Hsem. unfold py_getitem in H.
      destruct (dict_get "url_longa" d) as [u|] eqn:Hget; [| discriminate Hsem].
      rewrite gerar_padrao in H.
      destruct (enquanto_colide tape fuel (url_db st) _ _) as [[[c|e] pos']|] eqn:Hloop;
        try discriminate H;
        apply enquanto_colide_inv in Hloop as (k & Hk & Hr & -> & Hfree & Hbound);
        try discriminate Hr.
      injection Hr as ->. inversion H; subst.
      exists d, u, k. split_and!; done.
  - right. left. pose proof (sem_url_longa_truthy _ _ Hsem (ltac:(discriminate))) as Ht.
    inversion H; subst.
    destruct (get_json req) as [| b | z | s | l | d] eqn:Hd;
      try (unfold sem_url_longa in Hsem; rewrite Ht in Hsem; simpl in Hsem;
           discriminate Hsem);
      try (rewrite sem_url_longa_dict in Hsem; discriminate Hsem);
      unfold sem_url_longa in Hsem; rewrite Ht in Hsem; simpl in Hsem;
      injection Hsem as <-; split_and!; done.
Qed.

(** With a destination in the body, the call returns as soon as the fuel
    covers the first candidate that is free. *)
Lemma encurtar_url_termina (req : request) (st : state) d u (k fuel : nat) :
  get_json req = PyDict d → dict_get "url_longa" d = Some u →
  url_db st !! candidato tape (rng_pos st) k = None → (k ≤ fuel)%nat →
  ∃ c st', encurtar_url tape fuel req st = Some (Created u (host_url req) c, st').
Proof.
  intros Hd Hget Hfree Hle. unfold encurtar_url.
  rewrite Hd, sem_url_longa_dict. unfold py_getitem. rewrite Hget, gerar_padrao.
  destruct (enquanto_colide_termina tape _ _ _ _ Hfree Hle) as (c & pos' & ->).
  eauto.
Qed.

Lemma encurtar_url_preserva (fuel : nat) (req : request) (st : state) r st' c u :
  encurtar_url tape fuel req st = Some (r, st') →
  url_db st !! c = Some u → url_db st' !! c = Some u.
Proof.
  intros H Hc.
  apply encurtar_url_inv in H
    as [(_ & _ & ->) | [(_ & _ & _ & ->) | (d & v & k & _ & _ & _ & _ & Hfree & _ & ->)]];
    try exact Hc.
  simpl. rewrite lookup_insert_ne; [exact Hc |].
  intros Heq. rewrite Heq in Hfree. congruence.
Qed.

Lemma redirecionar_url_db (c : string) (st : state) :
  url_db (snd (redirecionar c st)) = url_db st.
Proof.
  unfold redirecionar. destruct (url_db st !! c) as [u|]; [| reflexivity].
  now destruct (truthy u).
Qed.

Lemma atender_preserva (fuel : nat) (op : chamada) (st : state) r st' c u :
  atender tape fuel op st = Some (r, st') →
  url_db st !! c = Some u → url_db st' !! c = Some u.
Proof.
  destruct op as [req | c' |]; simpl; intros H Hc.
  - eapply encurtar_url_preserva; eauto.
  - injection H as H. pose proof (redirecionar_url_db c' st) as E.
    rewrite H in E. simpl in E. now rewrite E.
  - injection H as H. unfold listar_links in H. now inversion H; subst.
Qed.

Lemma executar_cons (fuel : nat) (op : chamada) (cs : list chamada) (st : state) rs st'' :
  executar tape fuel (op :: cs) st = Some (rs, st'') →
  ∃ r st' rs', atender tape fuel op st = Some (r, st')
               ∧ executar tape fuel cs st' = Some (rs', st'')
               ∧ rs = r :: rs'.
Proof.
  cbn [executar]. destruct (atender tape fuel op st) as [[r st']|]; [| discriminate].
  destruct (executar tape fuel cs st') as [[rs' st3]|] eqn:E; [| discriminate].
  intros H. inversion H; subst. exists r, st', rs'. split_and!; done.
Qed.

Lemma executar_preserva (fuel : nat) (cs : list chamada) :
  ∀ st rs st' c u,
    executar tape fuel cs st = Some (rs, st') →
    url_db st !! c = Some u → url_db st' !! c = Some u.
Proof.
  induction cs as [|op cs IH]; intros st rs st' c u H Hc.
  - simpl in H. now inversion H; subst.
  - apply executar_cons in H as (r & st1 & rs' & Hop & Hrest & _).
    eapply IH; [exact Hrest |]. eapply atender_preserva; eauto.
Qed.

(** C1 (amended): a shorten request whose destination is absent -- the
    body is missing or empty, or it is an object without the key
    [url_longa] -- is answered with 400, for every fuel (no candidate is
    ever generated): the store, both counters and the cursor of the random
    source are left exactly as they were. *)
Theorem encurtar_url_sem_destino (fuel : nat) (req : request) (st : state) :
  truthy (get_json req) = false
  ∨ (∃ d, get_json req = PyDict d ∧ dict_get "url_longa" d = None) →
  encurtar_url tape fuel req st = Some (BadRequest, st)
  ∧ status BadRequest = 400%Z.
Proof.
  intros Habs. split; [| reflexivity]. unfold encurtar_url.
  destruct Habs as [Hf | (d & Hd & Hget)].
  - now rewrite sem_url_longa_falsy.
  - now rewrite Hd, sem_url_longa_dict, Hget.
Qed.

(** C2: for a non-empty destination [url], whenever [encurtar_url] answers,
    it answers 201 with a code whose lookup redirects to exactly [url];
    and it does answer, with enough fuel, as soon as one of the candidates
    the random source will produce is free. *)
Theorem ida_e_volta (req : request) (st : state) d (url : string) :
  get_json req = PyDict d → dict_get "url_longa" d = Some (PyStr url) → url ≠ "" →
  (∀ fuel r st',
      encurtar_url tape fuel req st = Some (r, st') →
      ∃ c, r = Created (PyStr url) (host_url req) c
           ∧ fst (redirecionar c st') = Redirect (PyStr url))
  ∧ ((∃ k, url_db st !! candidato tape (rng_pos st) k = None) →
     ∃ fuel c st',
       encurtar_url tape fuel req st = Some (Created (PyStr url) (host_url req) c, st')).
Proof.
  intros Hd Hget Hne. split.
  - intros fuel r st' H.
    apply encurtar_url_inv in H
      as [(Hsem & _) | [(Hnd & _) | (d' & u & k & Hd' & Hget' & _ & -> & _ & _ & ->)]].
    + rewrite Hd, sem_url_longa_dict, Hget in Hsem. discriminate Hsem.
    + now destruct (Hnd d).
    + rewrite Hd in Hd'. injection Hd' as <-. rewrite Hget in Hget'.
      injection Hget' as <-. eexists. split; [reflexivity |].
      unfold redirecionar. simpl url_db. rewrite lookup_insert_eq. simpl.
      destruct (String.eqb url "") eqn:E; [| reflexivity].
      apply String.eqb_eq in E. contradiction.
  - intros (k & Hfree).
    destruct (encurtar_url_termina req st d _ k k Hd Hget Hfree (le_n _)) as (c & st' & H).
    eauto.
Qed.

(** C3: a successful [encurtar_url] binds a code that was not a key of the
    store when it was inserted, and changes nothing else in the store; and
    along any run of the service, from any state, two destinations found
    under one code at two points of the run are the same destination. *)
Theorem unicidade (fuel : nat) (st : state) :
  (∀ req u h c st',
      encurtar_url tape fuel req st = Some (Created u h c, st') →
      url_db st !! c = None ∧ url_db st' = <[c := u]> (url_db st))
  ∧ (∀ cs1 cs2 rs1 rs2 st1 st2 c u1 u2,
      executar tape fuel cs1 st = Some (rs1, st1) →
      executar tape fuel cs2 st1 = Some (rs2, st2) →
      url_db st1 !! c = Some u1 → url_db st2 !! c = Some u2 → u1 = u2).
Proof.
  split.
  - intros req u h c st' H.
    apply encurtar_url_inv in H
      as [(_ & Hr & _) | [(_ & _ & Hr & _) | (d & v & k & _ & _ & _ & Hr & Hfree & _ & ->)]];
      try discriminate Hr.
    injection Hr as -> _ ->. now split.
  - intros cs1 cs2 rs1 rs2 st1 st2 c u1 u2 _ H2 Hu1 Hu2.
    pose proof (executar_preserva _ _ _ _ _ _ _ H2 Hu1) as Hu. congruence.
Qed.

(** C7: a binding found in the store, in any state, is still there and
    unchanged after any further request (shorten, resolve or listing), and
    so after any sequence of requests. *)
Theorem vinculo_imutavel (fuel : nat) (st : state) (c : string) (u : pyval) :
  url_db st !! c = Some u →
  (∀ op r st', atender tape fuel op st = Some (r, st') → url_db st' !! c = Some u)
  ∧ (∀ cs rs st', executar tape fuel cs st = Some (rs, st') → url_db st' !! c = Some u).
Proof.
  intros Hc. split.
  - intros op r st' H. eapply atender_preserva; eauto.
  - intros cs rs st' H. eapply executar_preserva; eauto.
Qed.

(** The reply of [redirecionar] only depends on what the store holds
    under the code. *)
Lemma redirecionar_fst (c : string) (st st' : state) :
  url_db st' !! c = url_db st !! c →
  fst (redirecionar c st') = fst (redirecionar c st).
Proof.
  unfold redirecionar. intros ->.
  destruct (url_db st !! c) as [u|]; [| reflexivity]. now destruct (truthy u).
Qed.

Lemma encurtar_url_frame (fuel : nat) (req : request) (st : state) r st' c :
  encurtar_url tape fuel req st = Some (r, st') →
  (∀ u h, r ≠ Created u h c) →
  url_db st' !! c = url_db st !! c.
Proof.
  intros H Hr.
  apply encurtar_url_inv in H
    as [(_ & _ & ->) | [(_ & _ & _ & ->) | (d & v & k & _ & _ & _ & -> & _ & _ & ->)]];
    try reflexivity.
  simpl. apply lookup_insert_ne. intros Heq. eapply Hr. now rewrite Heq.
Qed.

Lemma executar_encurtar_frame (fuel : nat) (c : string) (reqs : list request) :
  ∀ st rs st',
    executar tape fuel (Encurtar <$> reqs) st = Some (rs, st') →
    (∀ u h, Created u h c ∉ rs) →
    url_db st' !! c = url_db st !! c.
Proof.
  induction reqs as [|req reqs IH]; intros st rs st' H Hrs.
  - simpl in H. now inversion H; subst.
  - rewrite fmap_cons in H.
    apply executar_cons in H as (r & st1 & rs' & Hop & Hrest & ->).
    rewrite (IH _ _ _ Hrest).
    + eapply encurtar_url_frame; [exact Hop |].
      intros u h ->. eapply Hrs. left.
    + intros u h Hin. eapply Hrs. right. exact Hin.
Qed.

Lemma atender_contadores (fuel : nat) (op : chamada) (st : state) r st' :
  atender tape fuel op st = Some (r, st') →
  links_criados_total st' = (links_criados_total st + conta criado [r])%nat
  ∧ redirecionamentos_total st'
    = (redirecionamentos_total st + conta redirecionado [r])%nat
  ∧ (criado r = true → ∃ req, op = Encurtar req)
  ∧ (redirecionado r = true → ∃ c, op = Redirecionar c).
Proof.
  destruct op as [req | c |]; simpl; intros H.
  - apply encurtar_url_inv in H
      as [(_ & -> & ->) | [(_ & _ & -> & ->) | (d & v & k & _ & _ & _ & -> & _ & _ & ->)]];
      cbn; split_and!; try lia; try discriminate; eauto.
  - injection H as H. unfold redirecionar in H.
    destruct (url_db st !! c) as [u|]; [destruct (truthy u) |];
      inversion H; subst; cbn; split_and!; try lia; try discriminate; eauto.
  - injection H as H. inversion H; subst. cbn. split_and!; try lia; discriminate.
Qed.

Lemma conta_cons (p : response → bool) (r : response) (rs : list response) :
  conta p (r :: rs) = (conta p [r] + conta p rs)%nat.
Proof. unfold conta. simpl. now destruct (p r). Qed.

Lemma executar_contadores (fuel : nat) (cs : list chamada) :
  ∀ st rs st',
    executar tape fuel cs st = Some (rs, st') →
    links_criados_total st' = (links_criados_total st + conta criado rs)%nat
    ∧ redirecionamentos_total st'
      = (redirecionamentos_total st + conta redirecionado rs)%nat.
Proof.
  induction cs as [|op cs IH]; intros st rs st' H.
  - simpl in H. inversion H; subst. cbn. lia.
  - apply executar_cons in H as (r & st1 & rs' & Hop & Hrest & ->).
    apply IH in Hrest as [-> ->].
    apply atender_contadores in Hop as (-> & -> & _).
    rewrite (conta_cons criado r rs'), (conta_cons redirecionado r rs'). lia.
Qed.

(** C4 (amended): [redirecionar] answers "not found" exactly when the
    store has nothing under the code or has a falsy value (the empty
    string, for one) under it; a truthy value is handed to the redirect and
    [redirecionamentos_total] goes up by exactly one, nothing else
    changing; a "not found" leaves the whole state as it was. *)
Theorem redirecionar_spec (c : string) (st : state) :
  (fst (redirecionar c st) = NotFound
   ↔ url_db st !! c = None ∨ ∃ u, url_db st !! c = Some u ∧ truthy u = false)
  ∧ (∀ u, url_db st !! c = Some u → truthy u = true →
          redirecionar c st
          = (Redirect u,
             State (url_db st) (links_criados_total st)
                   (S (redirecionamentos_total st)) (rng_pos st)))
  ∧ (fst (redirecionar c st) = NotFound → snd (redirecionar c st) = st).
Proof.
  unfold redirecionar.
  destruct (url_db st !! c) as [u|] eqn:Hc; [destruct (truthy u) eqn:Ht |]; simpl.
  - split_and!; [split | |]; try discriminate.
    + intros [Hn | (v & Hv & Hf)]; [discriminate | congruence].
    + intros v Hv _. now injection Hv as <-.
  - split_and!; [split | |]; try done.
    + intros _. right. eauto.
    + intros v Hv Htv. congruence.
  - split_and!; [split | |]; try done. intros _. now left.
Qed.

(** C5: every request moves each counter by exactly the number of
    successes it stands for (one for a 201 of [encurtar_url] on
    [links_criados_total], one for a 302 of [redirecionar] on
    [redirecionamentos_total], nothing otherwise), so no request lowers a
    counter; and after any run from a fresh process the two counters are
    the numbers of 201 and of 302 replies of the run. *)
Theorem contadores_exatos (fuel pos : nat) (cs : list chamada) rs (st : state) :
  executar tape fuel cs (estado_inicial pos) = Some (rs, st) →
  links_criados_total st = conta criado rs
  ∧ redirecionamentos_total st = conta redirecionado rs
  ∧ (∀ op st1 r st2,
        atender tape fuel op st1 = Some (r, st2) →
        links_criados_total st2
          = (links_criados_total st1 + if criado r then 1 else 0)%nat
        ∧ redirecionamentos_total st2
          = (redirecionamentos_total st1 + if redirecionado r then 1 else 0)%nat
        ∧ (links_criados_total st1 ≤ links_criados_total st2)%nat
        ∧ (redirecionamentos_total st1 ≤ redirecionamentos_total st2)%nat
        ∧ (criado r = true → ∃ req, op = Encurtar req)
        ∧ (redirecionado r = true → ∃ c, op = Redirecionar c)).
Proof.
  intros H. apply executar_contadores in H as [H1 H2]. simpl in H1, H2.
  split_and!; [exact H1 | exact H2 |].
  intros op st1 r st2 Hop.
  apply atender_contadores in Hop as (Hl & Hr & Hc & Hd).
  unfold conta in Hl, Hr. simpl in Hl, Hr.
  destruct (criado r), (redirecionado r); simpl in Hl, Hr;
    split_and!; try lia; assumption.
Qed.

(** C8: a code that is not a key of the store is "not found"; it still is
    after any sequence of shorten requests none of which answered with
    that code; and a shorten request changes the reply of [redirecionar]
    for no code other than the one it answers with. *)
Theorem nao_encontrado_estavel (fuel : nat) (st : state) (c : string) :
  url_db st !! c = None →
  redirecionar c st = (NotFound, st)
  ∧ (∀ reqs rs st',
        executar tape fuel (Encurtar <$> reqs) st = Some (rs, st') →
        (∀ u h, Created u h c ∉ rs) →
        redirecionar c st' = (NotFound, st'))
  ∧ (∀ req r st' c',
        encurtar_url tape fuel req st = Some (r, st') →
        (∀ u h, r ≠ Created u h c') →
        fst (redirecionar c' st') = fst (redirecionar c' st)).
Proof.
  intros Hc. split_and!.
  - unfold redirecionar. now rewrite Hc.
  - intros reqs rs st' H Hrs.
    pose proof (executar_encurtar_frame _ _ _ _ _ _ H Hrs) as E.
    unfold redirecionar. now rewrite E, Hc.
  - intros req r st' c' H Hr. apply redirecionar_fst.
    eapply encurtar_url_frame; eauto.
Qed.

Lemma encurtar_url_mono (fuel fuel' : nat) (req : request) (st : state) x :
  (fuel ≤ fuel')%nat →
  encurtar_url tape fuel req st = Some x →
  encurtar_url tape fuel' req st = Some x.
Proof.
  intros Hle. unfold encurtar_url.
  destruct (sem_url_longa (get_json req)) as [[|]|e]; try done.
  destruct (py_getitem (get_json req) "url_longa") as [u|e]; try done.
  destruct (gerar_codigo_curto tape None (rng_pos st)) as [[c|e] pos]; try done.
  destruct (enquanto_colide tape fuel (url_db st) c pos) as [y|] eqn:E; [| done].
  now rewrite (enquanto_colide_mono tape _ _ _ Hle _ _ _ E).
Qed.

(** C9 (amended): whatever [encurtar_url] answers, it is a 400 that
    changes nothing, a 500 ([TypeError]) for a body that is not a JSON
    object, or a 201 whose code is the first candidate of the random source
    that was not a key of the store, every colliding candidate before it
    having been thrown away; with a destination in the body the call
    returns such a 201 exactly when some candidate the random source will
    produce is free (a free code somewhere in the code space is not
    enough); more fuel never changes an answer; and for a body that is
    falsy (missing) or a JSON object the answer is a 201 or a 400, never
    anything else. *)
Theorem colisao_absorvida (req : request) (st : state) :
  (∀ fuel r st',
      encurtar_url tape fuel req st = Some (r, st') →
      (r = BadRequest ∧ st' = st)
      ∨ (r = ServerError TypeError ∧ st' = st ∧ ∀ d, get_json req ≠ PyDict d)
      ∨ (∃ u k,
            r = Created u (host_url req) (candidato tape (rng_pos st) k)
            ∧ url_db st !! candidato tape (rng_pos st) k = None
            ∧ (∀ j, (j < k)%nat → is_Some (url_db st !! candidato tape (rng_pos st) j))
            ∧ url_db st' = <[candidato tape (rng_pos st) k := u]> (url_db st)
            ∧ rng_pos st' = (rng_pos st + 6 * S k)%nat))
  ∧ (∀ d u,
        get_json req = PyDict d → dict_get "url_longa" d = Some u →
        ((∃ k, url_db st !! candidato tape (rng_pos st) k = None)
         ↔ ∃ fuel c st',
             encurtar_url tape fuel req st = Some (Created u (host_url req) c, st')))
  ∧ (∀ fuel fuel' x,
        (fuel ≤ fuel')%nat →
        encurtar_url tape fuel req st = Some x →
        encurtar_url tape fuel' req st = Some x)
  ∧ (truthy (get_json req) = false ∨ (∃ d, get_json req = PyDict d) →
     ∀ fuel r st',
       encurtar_url tape fuel req st = Some (r, st') →
       (r = BadRequest ∧ st' = st)
       ∨ (∃ u c, r = Created u (host_url req) c
                 ∧ url_db st !! c = None ∧ url_db st' !! c = Some u)).
Proof.
  split_and!.
  - intros fuel r st' H.
    apply encurtar_url_inv in H
      as [(_ & -> & ->) | [(Hnd & _ & -> & ->) | (d & u & k & _ & _ & _ & -> & Hfree & Hb & ->)]].
    + now left.
    + right. left. split_and!; done.
    + right. right. exists u, k. split_and!; done.
  - intros d u Hd Hget. split.
    + intros (k & Hfree).
      destruct (encurtar_url_termina req st d u k k Hd Hget Hfree (le_n _))
        as (c & st' & H).
      eauto.
    + intros (fuel & c & st' & H).
      apply encurtar_url_inv in H
        as [(_ & Hr & _) | [(_ & _ & Hr & _) | (d' & v & k & _ & _ & _ & _ & Hfree & _)]];
        try discriminate Hr.
      eauto.
  - intros fuel fuel' x Hle H. eapply encurtar_url_mono; eauto.
  - intros Hbody fuel r st' H.
    apply encurtar_url_inv in H
      as [(_ & -> & ->) | [(Hnd & Ht & _) | (d & u & k & _ & _ & _ & -> & Hfree & _ & ->)]].
    + now left.
    + destruct Hbody as [Hf | (d & Hd)]; [congruence | now destruct (Hnd d)].
    + right. eexists _, _. split_and!; [reflexivity | exact Hfree |].
      simpl. apply lookup_insert_eq.
Qed.

(** C10: a shorten request whose body is [{"url_longa": ""}] is not
    rejected: whenever it is answered, the answer is a 201 with a code [c]
    that was free, [c] is now bound to the empty string and
    [links_criados_total] is one higher; looking [c] up afterwards is
    answered "not found" and changes nothing -- [redirecionamentos_total]
    included --, while the listing shows [c] with the empty string.  The
    request is answered as soon as a candidate of the random source is
    free. *)
Theorem url_vazia_criada_e_nao_encontrada (req : request) (st : state) :
  get_json req = corpo (PyStr "") →
  (∀ fuel r st',
      encurtar_url tape fuel req st = Some (r, st') →
      ∃ c, r = Created (PyStr "") (host_url req) c
           ∧ status r = 201%Z
           ∧ url_db st !! c = None
           ∧ url_db st' = <[c := PyStr ""]> (url_db st)
           ∧ links_criados_total st' = S (links_criados_total st)
           ∧ redirecionar c st' = (NotFound, st')
           ∧ ∃ m, listar_links st' = (Links m, st') ∧ m !! c = Some (PyStr ""))
  ∧ ((∃ k, url_db st !! candidato tape (rng_pos st) k = None) →
     ∃ fuel c st',
       encurtar_url tape fuel req st = Some (Created (PyStr "") (host_url req) c, st')).
Proof.
  intros Hd. split.
  - intros fuel r st' H.
    apply encurtar_url_inv in H
      as [(Hsem & _) | [(Hnd & _) | (d & u & k & Hd' & Hget & _ & -> & Hfree & _ & ->)]].
    + rewrite Hd in Hsem. discriminate Hsem.
    + now destruct (Hnd [("url_longa", PyStr "")]).
    + rewrite Hd in Hd'. injection Hd' as <-. injection Hget as <-.
      eexists. split_and!; try done.
      * unfold redirecionar. simpl url_db. now rewrite lookup_insert_eq.
      * eexists. split; [reflexivity |]. simpl. apply lookup_insert_eq.
  - intros (k & Hfree).
    destruct (encurtar_url_termina req st _ (PyStr "") k k Hd eq_refl Hfree (le_n _))
      as (c & st' & H).
    eauto.
Qed.

End Servico.

(** * The theorems at concrete requests *)

Lemma corrida_executa :
  executar tape_sete 0 corrida (estado_inicial 0) = Some (respostas, estado_final).
Proof. vm_compute. reflexivity. Qed.

Lemma encurtar_url_a :
  encurtar_url tape_sete 0 (pedido url_a) (estado_inicial 0)
  = Some (Created url_a host "ahovCJ", estado_com "ahovCJ" url_a).
Proof. vm_compute. reflexivity. Qed.

(** A body without the key, and no body at all. *)
Lemma encurtar_url_sem_destino_witness :
  (encurtar_url tape_sete 0 (Request host (PyDict [("url", url_a)])) (estado_inicial 0)
   = Some (BadRequest, estado_inicial 0) ∧ status BadRequest = 400%Z)
  ∧ (encurtar_url tape_sete 0 (Request host PyNone) (estado_com "ahovCJ" url_a)
     = Some (BadRequest, estado_com "ahovCJ" url_a) ∧ status BadRequest = 400%Z).
Proof.
  split.
  - apply (encurtar_url_sem_destino tape_sete 0 (Request host (PyDict [("url", url_a)]))).
    right. exists [("url", url_a)]. split; reflexivity.
  - apply (encurtar_url_sem_destino tape_sete 0 (Request host PyNone)).
    left. reflexivity.
Defined.

(** C1, as stated, fails for the empty destination: the request is
    answered 201, a code is generated (six draws), bound to the empty
    string, and [links_criados_total] goes from 0 to 1. *)
Lemma encurtar_url_aceita_url_vazia :
  get_json (pedido (PyStr "")) = PyDict [("url_longa", PyStr "")]
  ∧ encurtar_url tape_sete 0 (pedido (PyStr "")) (estado_inicial 0)
    = Some (Created (PyStr "") host "ahovCJ", State (<["ahovCJ" := PyStr ""]> ∅) 1 0 6)
  ∧ status (Created (PyStr "") host "ahovCJ") = 201%Z.
Proof. split_and!; [reflexivity | vm_compute; reflexivity | reflexivity]. Qed.

Lemma ida_e_volta_witness :
  ∃ fuel c st',
    encurtar_url tape_sete fuel (pedido url_a) (estado_inicial 0)
    = Some (Created url_a host c, st')
    ∧ fst (redirecionar c st') = Redirect url_a.
Proof.
  destruct (ida_e_volta tape_sete (pedido url_a) (estado_inicial 0)
              [("url_longa", url_a)] "https://example.com/a"
              eq_refl eq_refl ltac:(discriminate)) as [Hvolta Hida].
  destruct Hida as (fuel & c & st' & H); [exists 0%nat; reflexivity |].
  exists fuel, c, st'. split; [exact H |].
  destruct (Hvolta _ _ _ H) as (c' & Hc & Hr). now injection Hc as <-.
Defined.

Lemma unicidade_witness :
  (url_db (estado_inicial 0) !! "ahovCJ" = None
   ∧ url_db (estado_com "ahovCJ" url_a) = <["ahovCJ" := url_a]> (url_db (estado_inicial 0)))
  ∧ (∀ u, url_db estado_final !! "ahovCJ" = Some u → url_a = u).
Proof.
  destruct (unicidade tape_sete 0 (estado_inicial 0)) as [Hlivre Hunico]. split.
  - exact (Hlivre (pedido url_a) url_a host "ahovCJ" _ encurtar_url_a).
  - intros u Hu.
    apply (Hunico [Encurtar (pedido url_a)]
                  [Encurtar (pedido (PyStr "")); Redirecionar "ahovCJ"]
                  [Created url_a host "ahovCJ"]
                  [Created (PyStr "") host "QX4bip"; Redirect url_a]
                  (estado_com "ahovCJ" url_a) estado_final "ahovCJ");
      [vm_compute; reflexivity | vm_compute; reflexivity | reflexivity | exact Hu].
Defined.

(** C4, as stated, fails on a state the service reaches: after the
    shorten of an empty destination the code is bound, and looking it up
    is answered "not found". *)
Lemma redirecionar_vinculo_vazio_nao_encontrado :
  executar tape_sete 0 [Encurtar (pedido (PyStr "")); Redirecionar "ahovCJ"]
           (estado_inicial 0)
  = Some ([Created (PyStr "") host "ahovCJ"; NotFound], estado_com "ahovCJ" (PyStr ""))
  ∧ url_db (estado_com "ahovCJ" (PyStr "")) !! "ahovCJ" = Some (PyStr "")
  ∧ redirecionar "ahovCJ" (estado_com "ahovCJ" (PyStr ""))
    = (NotFound, estado_com "ahovCJ" (PyStr "")).
Proof. split_and!; vm_compute; reflexivity. Qed.

Lemma contadores_exatos_witness :
  executar tape_sete 0 corrida (estado_inicial 0) = Some (respostas, estado_final)
  ∧ links_criados_total estado_final = conta criado respostas
  ∧ redirecionamentos_total estado_final = conta redirecionado respostas
  ∧ conta criado respostas = 2%nat
  ∧ conta redirecionado respostas = 1%nat.
Proof.
  destruct (contadores_exatos tape_sete 0 0 corrida respostas estado_final
              corrida_executa) as (Hl & Hr & _).
  split_and!; [exact corrida_executa | exact Hl | exact Hr | reflexivity | reflexivity].
Defined.

Lemma vinculo_imutavel_witness :
  url_db estado_final !! "ahovCJ" = Some url_a.
Proof.
  destruct (vinculo_imutavel tape_sete 0 (estado_com "ahovCJ" url_a) "ahovCJ" url_a)
    as [_ Hrun]; [reflexivity |].
  apply (Hrun [Encurtar (pedido (PyStr "")); Redirecionar "ahovCJ"]
              [Created (PyStr "") host "QX4bip"; Redirect url_a]).
  vm_compute. reflexivity.
Defined.

Lemma nao_encontrado_estavel_witness :
  redirecionar "zzzzzz" (estado_inicial 0) = (NotFound, estado_inicial 0)
  ∧ redirecionar "zzzzzz" (estado_com "ahovCJ" url_a)
    = (NotFound, estado_com "ahovCJ" url_a).
Proof.
  destruct (nao_encontrado_estavel tape_sete 0 (estado_inicial 0) "zzzzzz" eq_refl)
    as (Hantes & Hdepois & _).
  split; [exact Hantes |].
  apply (Hdepois [pedido url_a] [Created url_a host "ahovCJ"]).
  - vm_compute. reflexivity.
  - intros u h Hin. apply list_elem_of_singleton in Hin. discriminate Hin.
Defined.

Lemma colisao_absorvida_witness :
  executar tape_repete 1 [Encurtar (pedido url_a); Encurtar (pedido url_a)]
           (estado_inicial 0)
  = Some ([Created url_a host "ahovCJ"; Created url_a host "wDKRY5"], estado_dois)
  ∧ url_db (estado_com "ahovCJ" url_a) !! candidato tape_repete 6 0 = Some url_a
  ∧ encurtar_url tape_repete 0 (pedido url_a) (estado_com "ahovCJ" url_a) = None
  ∧ encurtar_url tape_repete 1 (pedido url_a) (estado_com "ahovCJ" url_a)
    = Some (Created url_a host "wDKRY5", estado_dois)
  ∧ (∃ k, k = 1%nat
          ∧ "wDKRY5" = candidato tape_repete 6 k
          ∧ url_db (estado_com "ahovCJ" url_a) !! candidato tape_repete 6 k = None
          ∧ (∀ j, (j < k)%nat →
                  is_Some (url_db (estado_com "ahovCJ" url_a)
                             !! candidato tape_repete 6 j)))
  ∧ encurtar_url tape_repete 9 (pedido url_a) (estado_com "ahovCJ" url_a)
    = Some (Created url_a host "wDKRY5", estado_dois).
Proof.
  assert (Hrun : encurtar_url tape_repete 1 (pedido url_a) (estado_com "ahovCJ" url_a)
                 = Some (Created url_a host "wDKRY5", estado_dois))
    by (vm_compute; reflexivity).
  destruct (colisao_absorvida tape_repete (pedido url_a) (estado_com "ahovCJ" url_a))
    as (Hresp & _ & Hmono & _).
  split_and!; [vm_compute; reflexivity | vm_compute; reflexivity
               | vm_compute; reflexivity | exact Hrun | | ].
  - destruct (Hresp 1%nat _ _ Hrun)
      as [[Hr _] | [[Hr _] | (u & k & Hr & Hfree & Hbound & _ & Hpos)]];
      [discriminate Hr | discriminate Hr |].
    exists k. injection Hr as _ Hc. simpl in Hpos.
    split_and!; [lia | exact Hc | exact Hfree | exact Hbound].
  - apply (Hmono 1%nat 9%nat); [lia | exact Hrun].
Defined.

Lemma url_vazia_criada_e_nao_encontrada_witness :
  ∃ c st',
    encurtar_url tape_sete 0 (pedido (PyStr "")) (estado_inicial 0)
    = Some (Created (PyStr "") host c, st')
    ∧ links_criados_total st' = 1%nat
    ∧ redirecionar c st' = (NotFound, st')
    ∧ ∃ m, listar_links st' = (Links m, st') ∧ m !! c = Some (PyStr "").
Proof.
  destruct (url_vazia_criada_e_nao_encontrada tape_sete (pedido (PyStr ""))
              (estado_inicial 0) eq_refl) as [Hinv _].
  destruct (Hinv 0%nat (Created (PyStr "") host "ahovCJ")
                 (estado_com "ahovCJ" (PyStr "")))
    as (c & Hc & _ & _ & _ & Hl & Hr & Hm); [vm_compute; reflexivity |].
  injection Hc as <-.
  exists "ahovCJ", (estado_com "ahovCJ" (PyStr "")).
  split_and!; [vm_compute; reflexivity | exact Hl | exact Hr | exact Hm].
Defined.

(** A body that is JSON but not an object: the membership test of the
    guard raises, and the state is untouched. *)
Example encurtar_url_corpo_nao_objeto :
  encurtar_url tape_sete 0 (Request host (PyInt 5)) (estado_inicial 0)
  = Some (ServerError TypeError, estado_inicial 0).
Proof. reflexivity. Qed.

(** * A random source that never gets out of a collision *)

Lemma candidato_tape_zero (pos k : nat) : candidato tape_zero pos k = "aaaaaa".
Proof. reflexivity. Qed.

(** C9, as stated, fails: on the source [tape_zero] the first shorten
    binds ["aaaaaa"]; the code ["aaaaab"], of the same length, is free, and
    yet the second shorten never returns, whatever the fuel. *)
Lemma encurtar_url_nao_termina :
  encurtar_url tape_zero 0 (pedido url_a) (estado_inicial 0)
  = Some (Created url_a host "aaaaaa", estado_com "aaaaaa" url_a)
  ∧ url_db (estado_com "aaaaaa" url_a) !! "aaaaab" = None
  ∧ String.length "aaaaab" = String.length "aaaaaa"
  ∧ ∀ fuel, encurtar_url tape_zero fuel (pedido url_a) (estado_com "aaaaaa" url_a) = None.
Proof.
  split_and!; [vm_compute; reflexivity | vm_compute; reflexivity | reflexivity |].
  intros fuel.
  destruct (encurtar_url tape_zero fuel (pedido url_a) (estado_com "aaaaaa" url_a))
    as [[r st']|] eqn:E; [| reflexivity].
  apply encurtar_url_inv in E
    as [(Hsem & _) | [(Hnd & _) | (d & u & k & _ & _ & _ & _ & Hfree & _)]].
  - discriminate Hsem.
  - now destruct (Hnd [("url_longa", url_a)]).
  - rewrite candidato_tape_zero in Hfree. vm_compute in Hfree. discriminate Hfree.
Qed.

(** * More on the code generator *)

Lemma string_of_list_ascii_app (l1 l2 : list ascii) :
  string_of_list_ascii (l1 ++ l2)%list
  = (string_of_list_ascii l1 ++ string_of_list_ascii l2)%string.
Proof. induction l1 as [|ch l1 IH]; simpl; [reflexivity | now rewrite IH]. Qed.

Lemma string_of_list_ascii_length (l : list ascii) :
  String.length (string_of_list_ascii l) = length l.
Proof. induction l as [|ch l IH]; simpl; [reflexivity | now rewrite IH]. Qed.

Lemma string_of_list_ascii_inj (l1 l2 : list ascii) :
  string_of_list_ascii l1 = string_of_list_ascii l2 → l1 = l2.
Proof.
  intros H. apply (f_equal list_ascii_of_string) in H.
  now rewrite !list_ascii_of_string_of_list_ascii in H.
Qed.

Lemma indice_em_nth (l : list ascii) (ch : ascii) :
  ch ∈ l → (indice_em l ch < length l)%nat ∧ nth (indice_em l ch) l "a"%char = ch.
Proof.
  induction l as [|x l IH]; intros Hin; [now apply elem_of_nil in Hin |].
  simpl. destruct (Ascii.eqb x ch) eqn:E.
  - apply Ascii.eqb_eq in E. split; [lia | exact E].
  - apply elem_of_cons in Hin as [-> | Hin]; [now rewrite Ascii.eqb_refl in E |].
    destruct (IH Hin) as [Hlt Hnth]. split; [lia | exact Hnth].
Qed.

Section GeradorFechado.

Variable tape : nat -> nat.

Lemma random_choice_nth (pos : nat) :
  random_choice tape caracteres pos
  = (Ok (nth (tape pos mod length caracteres) caracteres "a"%char), S pos).
Proof.
  destruct (random_choice_caracteres tape pos) as (ch & Hch & _).
  rewrite Hch. unfold random_choice in Hch.
  destruct (caracteres !! (tape pos mod length caracteres)) as [x|] eqn:E;
    [| discriminate Hch].
  injection Hch as ->. now rewrite (nth_lookup_Some _ _ "a"%char _ E).
Qed.

Lemma escolhas_S (n pos : nat) :
  escolhas tape (S n) pos
  = nth (tape pos mod length caracteres) caracteres "a"%char :: escolhas tape n (S pos).
Proof. reflexivity. Qed.

Lemma escolhas_app (n m pos : nat) :
  escolhas tape (n + m) pos
  = (escolhas tape n pos ++ escolhas tape m (pos + n))%list.
Proof. unfold escolhas. now rewrite seq_app, map_app. Qed.

Lemma escolhas_length (n pos : nat) : length (escolhas tape n pos) = n.
Proof. unfold escolhas. now rewrite length_map, length_seq. Qed.

(** [join_choices] never raises, takes exactly [n] draws, and picks the
    characters of [escolhas]. *)
Lemma join_choices_escolhas (n : nat) :
  ∀ pos, join_choices tape n pos
         = (Ok (string_of_list_ascii (escolhas tape n pos)), (pos + n)%nat).
Proof.
  induction n as [|n IH]; intros pos.
  - simpl. now rewrite Nat.add_0_r.
  - cbn [join_choices bind]. rewrite random_choice_nth, IH, escolhas_S. simpl.
    do 2 f_equal. lia.
Qed.

End GeradorFechado.

Arguments escolhas : simpl never.

Lemma escolhas_ext (tape1 tape2 : nat → nat) (n pos : nat) :
  escolhas tape1 n pos = escolhas tape2 n pos
  ↔ ∀ i, (pos ≤ i < pos + n)%nat → tape1 i mod 62 = tape2 i mod 62.
Proof.
  revert pos. induction n as [|n IH]; intros pos.
  - split; [intros _ i Hi; lia | reflexivity].
  - rewrite !escolhas_S. split.
    + intros H.
      pose proof (f_equal (hd "a"%char) H) as Hhd.
      pose proof (f_equal (@tl ascii) H) as Htl. cbn [hd tl] in Hhd, Htl.
      pose proof (proj1 (IH (S pos)) Htl) as Hrest. clear Htl H.
      intros i Hi. destruct (decide (i = pos)) as [-> | Hne]; [| apply Hrest; lia].
      pose proof caracteres_length as Hlen.
      apply (proj1 (List.NoDup_nth caracteres "a"%char)) in Hhd; [exact Hhd | | |].
      * apply NoDup_ListNoDup, caracteres_NoDup.
      * apply Nat.mod_upper_bound. rewrite Hlen. lia.
      * apply Nat.mod_upper_bound. rewrite Hlen. lia.
    + intros H. f_equal.
      * rewrite caracteres_length. now rewrite (H pos) by lia.
      * apply (IH (S pos)). intros i Hi. apply H. lia.
Qed.

(** X1: two random sources make the generator return the same code from
    the same position exactly when their draws agree modulo 62 on the
    window the call consumes (the [tamanho] positions from [pos] on): the
    code is a function of that window alone, and distinct index sequences
    give distinct codes. *)
Theorem gerar_codigo_curto_janela (tape1 tape2 : nat → nat) (tamanho : option Z)
    (pos : nat) :
  gerar_codigo_curto tape1 tamanho pos = gerar_codigo_curto tape2 tamanho pos
  ↔ ∀ i, (pos ≤ i < pos + Z.to_nat (default 6%Z tamanho))%nat →
         tape1 i mod 62 = tape2 i mod 62.
Proof.
  unfold gerar_codigo_curto. rewrite !join_choices_escolhas, <- escolhas_ext.
  split.
  - intros H. injection H as H. now apply string_of_list_ascii_inj.
  - now intros ->.
Qed.

Lemma list_ascii_of_string_length (s : string) :
  length (list_ascii_of_string s) = String.length s.
Proof. induction s as [|ch s IH]; simpl; [reflexivity | now rewrite IH]. Qed.

Lemma escolhas_soletra (l : list ascii) :
  Forall (λ ch, alfanumerico ch = true) l →
  ∀ pos,
    escolhas (λ i, indice_em caracteres (nth (i - pos) l "a"%char)) (length l) pos = l.
Proof.
  induction l as [|ch l IH]; intros Hall pos; [reflexivity |].
  apply Forall_cons in Hall as [Hch Hall].
  simpl length. rewrite escolhas_S. f_equal.
  - cbv beta. rewrite Nat.sub_diag.
    change (nth 0 (ch :: l) "a"%char) with ch.
    apply caracteres_alfanumerico, indice_em_nth in Hch as [Hlt Hnth].
    now rewrite Nat.mod_small.
  - rewrite <- (IH Hall (S pos)) at 2. apply escolhas_ext.
    intros i Hi. do 2 f_equal.
    replace (i - pos)%nat with (S (i - S pos)) by lia. reflexivity.
Qed.

(** X2: every string of letters and digits is a code the generator can
    return: on the source [tape_de s pos] the call for the length of [s]
    at position [pos] returns exactly [s]. *)
Theorem gerar_codigo_curto_sobrejetivo (s : string) (pos : nat) :
  Forall (λ ch, alfanumerico ch = true) (list_ascii_of_string s) →
  gerar_codigo_curto (tape_de s pos) (Some (Z.of_nat (String.length s))) pos
  = (Ok s, (pos + String.length s)%nat).
Proof.
  intros Hall. unfold gerar_codigo_curto. simpl default.
  rewrite join_choices_escolhas, Nat2Z.id. do 2 f_equal.
  rewrite <- list_ascii_of_string_length. unfold tape_de.
  rewrite (escolhas_soletra _ Hall). apply string_of_list_ascii_of_string.
Qed.

(** X3: a length that is zero or negative gives the empty code without a
    single draw, and generating [n + m] characters is generating [n] and
    then [m], the second call starting where the first stopped. *)
Theorem gerar_codigo_curto_concatena (tape : nat → nat) (n m : Z) (pos : nat) :
  ((n ≤ 0)%Z → gerar_codigo_curto tape (Some n) pos = (Ok "", pos))
  ∧ ((0 ≤ n)%Z → (0 ≤ m)%Z →
     ∃ s1 s2,
       gerar_codigo_curto tape (Some n) pos = (Ok s1, (pos + Z.to_nat n)%nat)
       ∧ gerar_codigo_curto tape (Some m) (pos + Z.to_nat n)
         = (Ok s2, (pos + Z.to_nat n + Z.to_nat m)%nat)
       ∧ gerar_codigo_curto tape (Some (n + m)%Z) pos
         = (Ok (s1 ++ s2)%string, (pos + Z.to_nat n + Z.to_nat m)%nat)).
Proof.
  unfold gerar_codigo_curto. simpl default. split.
  - intros Hn. now replace (Z.to_nat n) with 0%nat by lia.
  - intros Hn Hm. rewrite !join_choices_escolhas.
    eexists _, _. split_and!; [reflexivity | reflexivity |].
    rewrite Z2Nat.inj_add by assumption.
    rewrite escolhas_app, string_of_list_ascii_app. f_equal. lia.
Qed.

(** * More on the handlers *)

Lemma existsb_eq_str (key : string) (l : list pyval) :
  existsb (eq_str key) l = true ↔ PyStr key ∈ l.
Proof.
  rewrite existsb_exists. split.
  - intros (v & Hin & Heq). destruct v; try discriminate Heq.
    apply String.eqb_eq in Heq. subst. now apply list_elem_of_In.
  - intros Hin. exists (PyStr key). split; [now apply list_elem_of_In |].
    apply String.eqb_refl.
Qed.

Lemma index_is_Some (key s : string) :
  key ≠ "" →
  is_Some (String.index 0 key s)
  ↔ ∃ m, String.substring m (String.length key) s = key.
Proof.
  intros Hkey. split.
  - intros [m Hm]. exists m. now apply String.index_correct1 in Hm.
  - intros (m & Hm). destruct (String.index 0 key s) as [k|] eqn:E; [eauto |].
    exfalso. eapply (String.index_correct3 0 m key s E Hkey); [lia | exact Hm].
Qed.

Section ServicoMais.

Variable tape : nat -> nat.

Lemma candidato_bem_formado (pos k : nat) : bem_formado (candidato tape pos k) = true.
Proof.
  unfold bem_formado, candidato.
  destruct (gerar_codigo_curto_ok tape None (pos + 6 * k)) as (s & -> & Hlen & Hall).
  simpl in Hlen. rewrite Hlen. simpl. apply forallb_forall.
  intros ch Hin. apply caracteres_alfanumerico.
  rewrite Forall_forall in Hall. apply Hall. now apply list_elem_of_In.
Qed.

(** The store after a request, read off the reply. *)
Lemma atender_resposta (fuel : nat) (op : chamada) (st : state) r st' :
  atender tape fuel op st = Some (r, st') →
  match r with
  | Created u h c =>
      url_db st !! c = None ∧ url_db st' = <[c := u]> (url_db st)
      ∧ bem_formado c = true
  | _ => url_db st' = url_db st
  end.
Proof.
  destruct op as [req | c |]; simpl; intros H.
  - apply encurtar_url_inv in H
      as [(_ & -> & ->) | [(_ & _ & -> & ->) | (d & v & k & _ & _ & _ & -> & Hfree & _ & ->)]];
      try reflexivity.
    split_and!; [exact Hfree | reflexivity | apply candidato_bem_formado].
  - injection H as H. pose proof (redirecionar_url_db c st) as E.
    rewrite H in E. simpl in E. unfold redirecionar in H.
    destruct (url_db st !! c) as [u|]; [destruct (truthy u) |];
      inversion H; subst; reflexivity.
  - injection H as H. unfold listar_links in H. now inversion H; subst.
Qed.

(** X4: after any run, the store holds exactly what it held before plus
    one binding per 201 reply of the run, under the code and with the
    destination that the reply announced; the listing returns that very
    mapping and changes nothing. *)
Theorem url_db_sao_os_criados (fuel : nat) (cs : list chamada) (st : state) rs st' :
  executar tape fuel cs st = Some (rs, st') →
  (∀ c u, url_db st' !! c = Some u
          ↔ url_db st !! c = Some u ∨ ∃ h, Created u h c ∈ rs)
  ∧ listar_links st' = (Links (url_db st'), st').
Proof.
  intros H. split; [| reflexivity].
  revert st rs st' H. induction cs as [|op cs IH]; intros st rs st' H c u.
  - simpl in H. inversion H; subst. split; [now left |].
    intros [Hc | (h & Hin)]; [exact Hc | now apply elem_of_nil in Hin].
  - apply executar_cons in H as (r & st1 & rs' & Hop & Hrest & ->).
    rewrite (IH _ _ _ Hrest). pose proof (atender_resposta _ _ _ _ _ Hop) as Hr.
    split.
    + intros [Hc | (h & Hin)].
      * destruct r as [u0 h0 c0 | | | | |]; try (left; now rewrite <- Hr).
        destruct Hr as (Hfree & Hdb & _). rewrite Hdb in Hc.
        destruct (decide (c0 = c)) as [-> | Hne].
        -- rewrite lookup_insert_eq in Hc. injection Hc as ->.
           right. exists h0. left.
        -- rewrite lookup_insert_ne in Hc by exact Hne. now left.
      * right. exists h. now right.
    + intros [Hc | (h & Hin)].
      * left. eapply atender_preserva; eauto.
      * apply elem_of_cons in Hin as [<- | Hin]; [| right; eauto].
        left. destruct Hr as (_ & -> & _). apply lookup_insert_eq.
Qed.

(** X5: the codes of the 201 replies of a run are pairwise different,
    none of them was a key of the store when the run began, and each is
    six letters or digits: a shorten never hands out a code twice, not even
    for the same destination. *)
Theorem codigos_distintos (fuel : nat) (cs : list chamada) (st : state) rs st' :
  executar tape fuel cs st = Some (rs, st') →
  NoDup (codigos rs)
  ∧ ∀ c, c ∈ codigos rs → url_db st !! c = None ∧ bem_formado c = true.
Proof.
  revert st rs st'. induction cs as [|op cs IH]; intros st rs st' H.
  - simpl in H. inversion H; subst. split; [constructor |].
    intros c Hin. now apply elem_of_nil in Hin.
  - apply executar_cons in H as (r & st1 & rs' & Hop & Hrest & ->).
    destruct (IH _ _ _ Hrest) as [Hnd Hfree].
    pose proof (atender_resposta _ _ _ _ _ Hop) as Hr.
    assert (Hold : ∀ c, c ∈ codigos rs' → url_db st !! c = None).
    { intros c Hin. destruct (url_db st !! c) as [u|] eqn:E; [| reflexivity].
      pose proof (atender_preserva _ _ _ _ _ _ _ _ Hop E) as E1.
      destruct (Hfree c Hin) as [E2 _]. congruence. }
    destruct r as [u0 h0 c0 | | | | |]; simpl codigos;
      try (split; [exact Hnd | intros c Hin; split;
                                 [now apply Hold | now apply Hfree]]).
    destruct Hr as (Hc0 & Hdb & Hbf). split.
    + constructor; [| exact Hnd]. intros Hin.
      destruct (Hfree c0 Hin) as [E _]. rewrite Hdb, lookup_insert_eq in E.
      discriminate E.
    + intros c Hin. apply elem_of_cons in Hin as [-> | Hin]; [now split |].
      split; [now apply Hold | now apply Hfree].
Qed.

(** X6: a run makes the store grow by exactly the number of its 201
    replies, so the number of stored links and [links_criados_total]
    stay equal once they are, as they are in a fresh process. *)
Theorem tamanho_url_db (fuel : nat) (cs : list chamada) (st : state) rs st' :
  executar tape fuel cs st = Some (rs, st') →
  size (url_db st') = (size (url_db st) + conta criado rs)%nat
  ∧ (size (url_db st) = links_criados_total st →
     size (url_db st') = links_criados_total st').
Proof.
  intros H.
  assert (Hsize : size (url_db st') = (size (url_db st) + conta criado rs)%nat).
  { revert st rs st' H. induction cs as [|op cs IH]; intros st rs st' H.
    - simpl in H. inversion H; subst. cbn. lia.
    - apply executar_cons in H as (r & st1 & rs' & Hop & Hrest & ->).
      rewrite (IH _ _ _ Hrest), (conta_cons criado r rs').
      pose proof (atender_resposta _ _ _ _ _ Hop) as Hr.
      destruct r as [u0 h0 c0 | | | | |]; try (rewrite Hr; cbn; lia).
      destruct Hr as (Hfree & -> & _).
      rewrite (map_size_insert_None _ _ _ Hfree). cbn. lia. }
  split; [exact Hsize |].
  intros Heq. apply executar_contadores in H as [-> _]. lia.
Qed.

Lemma executar_chaves (fuel : nat) (cs : list chamada) :
  ∀ st rs st',
    executar tape fuel cs st = Some (rs, st') →
    (∀ c, is_Some (url_db st !! c) → bem_formado c = true) →
    ∀ c, is_Some (url_db st' !! c) → bem_formado c = true.
Proof.
  induction cs as [|op cs IH]; intros st rs st' H Hinv.
  - simpl in H. now inversion H; subst.
  - apply executar_cons in H as (r & st1 & rs' & Hop & Hrest & _).
    apply (IH _ _ _ Hrest).
    pose proof (atender_resposta _ _ _ _ _ Hop) as Hr.
    destruct r as [u0 h0 c0 | | | | |]; try (now rewrite Hr).
    destruct Hr as (_ & -> & Hbf). intros c Hc.
    destruct (decide (c0 = c)) as [<- | Hne]; [exact Hbf |].
    rewrite lookup_insert_ne in Hc by exact Hne. now apply Hinv.
Qed.

(** X7: in a process started fresh every key of the store is six
    letters or digits, so a lookup of any other string (another length,
    or a character outside the alphabet) is answered "not found" and
    leaves the state as it was. *)
Theorem chave_mal_formada_nao_encontrada (fuel pos : nat) (cs : list chamada) rs
    (st : state) :
  executar tape fuel cs (estado_inicial pos) = Some (rs, st) →
  (∀ c, is_Some (url_db st !! c) →
        String.length c = 6%nat
        ∧ Forall (λ ch, alfanumerico ch = true) (list_ascii_of_string c))
  ∧ (∀ c, bem_formado c = false →
          url_db st !! c = None ∧ redirecionar c st = (NotFound, st)).
Proof.
  intros H.
  assert (Hinv : ∀ c, is_Some (url_db st !! c) → bem_formado c = true).
  { apply (executar_chaves _ _ _ _ _ H). intros c [u Hu].
    simpl in Hu. rewrite lookup_empty in Hu. discriminate Hu. }
  split.
  - intros c Hc. apply Hinv in Hc. unfold bem_formado in Hc.
    apply andb_true_iff in Hc as [Hlen Hall]. split; [now apply Nat.eqb_eq |].
    apply Forall_forall. intros ch Hin.
    rewrite forallb_forall in Hall. apply Hall. now apply list_elem_of_In.
  - intros c Hbf.
    assert (Hc : url_db st !! c = None).
    { destruct (url_db st !! c) as [u|] eqn:E; [| reflexivity].
      rewrite Hinv in Hbf by eauto. discriminate Hbf. }
    split; [exact Hc |]. unfold redirecionar. now rewrite Hc.
Qed.

Lemma redirecionar_eta (c : string) (st : state) :
  redirecionar c st
  = (fst (redirecionar c st),
     State (url_db st) (links_criados_total st)
           (redirecionamentos_total st
            + if redirecionado (fst (redirecionar c st)) then 1 else 0)
           (rng_pos st)).
Proof.
  unfold redirecionar. destruct st as [db l r p]. simpl.
  destruct (db !! c) as [u|]; [destruct (truthy u) |]; simpl;
    do 2 f_equal; lia.
Qed.

(** X8: looking the same code up [n] times in a row gives [n] times the
    reply of the first lookup; the store, [links_criados_total] and the
    random source are untouched, and [redirecionamentos_total] has grown
    by [n] when the reply is a redirect and not at all otherwise. *)
Theorem redirecionar_repetido (fuel n : nat) (c : string) (st : state) :
  executar tape fuel (replicate n (Redirecionar c)) st
  = Some (replicate n (fst (redirecionar c st)),
          State (url_db st) (links_criados_total st)
                (redirecionamentos_total st
                 + n * (if redirecionado (fst (redirecionar c st)) then 1 else 0))
                (rng_pos st)).
Proof.
  revert st. induction n as [|n IH]; intros st.
  - simpl. destruct st as [db l r p]. simpl. now rewrite Nat.add_0_r.
  - cbn [replicate executar atender]. rewrite redirecionar_eta, IH.
    set (r := fst (redirecionar c st)).
    set (st1 := State _ _ _ _).
    assert (Hfst : fst (redirecionar c st1) = r) by now apply redirecionar_fst.
    rewrite Hfst. subst st1. cbn [fst url_db links_criados_total
                                  redirecionamentos_total rng_pos].
    do 3 f_equal. destruct (redirecionado r); lia.
Qed.

(** X9: a body that is not a JSON object never creates a link and is
    always answered, whatever the fuel, with the state untouched: the
    answer is 400 when the body is falsy, a list without the element
    ["url_longa"] or a string without that substring, and otherwise (the
    membership test or the indexing raises [TypeError]) 500. *)
Theorem encurtar_url_sem_objeto (fuel : nat) (req : request) (st : state) :
  (∀ d, get_json req ≠ PyDict d) →
  ∃ r,
    encurtar_url tape fuel req st = Some (r, st)
    ∧ (r = BadRequest ∨ r = ServerError TypeError)
    ∧ (r = BadRequest
       ↔ truthy (get_json req) = false
         ∨ (∃ l, get_json req = PyList l ∧ PyStr "url_longa" ∉ l)
         ∨ (∃ s, get_json req = PyStr s
                 ∧ ∀ m, String.substring m 9 s ≠ "url_longa")).
Proof.
  intros Hnd. unfold encurtar_url, sem_url_longa.
  destruct (get_json req) as [| b | z | s | l | d] eqn:Hd.
  - exists BadRequest. split_and!; [reflexivity | now left |].
    split; [now left | reflexivity].
  - destruct b; simpl.
    + exists (ServerError TypeError). split_and!; [reflexivity | now right |].
      split; [discriminate |].
      intros [Hf | [(l & Hl & _) | (s & Hs & _)]]; discriminate.
    + exists BadRequest. split_and!; [reflexivity | now left |].
      split; [now left | reflexivity].
  - simpl. destruct (z =? 0)%Z; simpl.
    + exists BadRequest. split_and!; [reflexivity | now left |].
      split; [now left | reflexivity].
    + exists (ServerError TypeError). split_and!; [reflexivity | now right |].
      split; [discriminate |].
      intros [Hf | [(l & Hl & _) | (s' & Hs & _)]]; discriminate.
  - simpl truthy. destruct (String.eqb s "") eqn:Es; simpl negb; cbv iota.
    + exists BadRequest. split_and!; [reflexivity | now left |].
      split; [now left | reflexivity].
    + unfold py_contains.
      pose proof (index_is_Some "url_longa" s ltac:(discriminate)) as Hidx.
      destruct (String.index 0 "url_longa" s) as [k|]; simpl.
      * exists (ServerError TypeError). split_and!; [reflexivity | now right |].
        split; [discriminate |].
        intros [Hf | [(l & Hl & _) | (s' & Hs & Hno)]]; try discriminate.
        injection Hs as <-. destruct (proj1 Hidx) as (m & Hm); [eauto |].
        now destruct (Hno m).
      * exists BadRequest. split_and!; [reflexivity | now left |].
        split; [| reflexivity]. intros _. right. right. exists s.
        split; [reflexivity |]. intros m Hm.
        destruct (proj2 Hidx) as [k Hk]; [eauto | discriminate Hk].
  - destruct l as [|v l]; simpl truthy; cbv iota.
    + exists BadRequest. split_and!; [reflexivity | now left |].
      split; [now left | reflexivity].
    + unfold py_contains.
      pose proof (existsb_eq_str "url_longa" (v :: l)) as Hex.
      destruct (existsb (eq_str "url_longa") (v :: l)); simpl.
      * exists (ServerError TypeError). split_and!; [reflexivity | now right |].
        split; [discriminate |].
        intros [Hf | [(l' & Hl & Hno) | (s' & Hs & _)]]; try discriminate.
        injection Hl as <-. destruct Hno. now apply Hex.
      * exists BadRequest. split_and!; [reflexivity | now left |].
        split; [| reflexivity]. intros _. right. left. exists (v :: l).
        split; [reflexivity |]. intros Hin. apply Hex in Hin. discriminate Hin.
  - now destruct (Hnd d).
Qed.

(** X10: the destination need not be a string. Whatever JSON value [v]
    stands under [url_longa] (a number, a list, [null]), an answer of
    [encurtar_url] is a 201 that stores [v] as it is; looking the new
    code up then redirects to [v] when [v] is truthy, and is answered
    "not found" when it is falsy ([null], [0], [false], empty string,
    list or object). *)
Theorem destino_qualquer_valor (fuel : nat) (req : request) (st : state) d v r st' :
  get_json req = PyDict d → dict_get "url_longa" d = Some v →
  encurtar_url tape fuel req st = Some (r, st') →
  ∃ c, r = Created v (host_url req) c
       ∧ url_db st' !! c = Some v
       ∧ redirecionar c st'
         = if truthy v
           then (Redirect v,
                 State (url_db st') (links_criados_total st')
                       (S (redirecionamentos_total st')) (rng_pos st'))
           else (NotFound, st').
Proof.
  intros Hd Hget H.
  apply encurtar_url_inv in H
    as [(Hsem & _) | [(Hnd & _) | (d' & u & k & Hd' & Hget' & _ & -> & _ & _ & ->)]].
  - rewrite Hd, sem_url_longa_dict, Hget in Hsem. discriminate Hsem.
  - now destruct (Hnd d).
  - rewrite Hd in Hd'. injection Hd' as <-. rewrite Hget in Hget'.
    injection Hget' as <-. eexists. split_and!; [reflexivity | apply lookup_insert_eq |].
    unfold redirecionar. cbn [url_db]. rewrite lookup_insert_eq. reflexivity.
Qed.

(** X11: a 201 of [encurtar_url] echoes the destination found under
    [url_longa] in the body, and its short URL is the host URL of the
    request followed by a code of exactly six letters or digits; it took
    a positive multiple of six draws. *)
Theorem resposta_criada (fuel : nat) (req : request) (st : state) r st' :
  encurtar_url tape fuel req st = Some (r, st') →
  criado r = true →
  ∃ d u c,
    get_json req = PyDict d ∧ dict_get "url_longa" d = Some u
    ∧ r = Created u (host_url req) c
    ∧ url_curta r = Some (host_url req ++ c)
    ∧ String.length c = 6%nat
    ∧ Forall (λ ch, alfanumerico ch = true) (list_ascii_of_string c)
    ∧ ∃ k, rng_pos st' = (rng_pos st + 6 * S k)%nat.
Proof.
  intros H Hr.
  apply encurtar_url_inv in H
    as [(_ & -> & _) | [(_ & _ & -> & _) | (d & u & k & Hd & Hget & _ & -> & _ & _ & ->)]];
    try discriminate Hr.
  exists d, u, (candidato tape (rng_pos st) k).
  pose proof (candidato_bem_formado (rng_pos st) k) as Hbf.
  unfold bem_formado in Hbf. apply andb_true_iff in Hbf as [Hlen Hall].
  split_and!; try done.
  - now apply Nat.eqb_eq.
  - apply Forall_forall. intros ch Hin. rewrite forallb_forall in Hall.
    apply Hall. now apply list_elem_of_In.
  - now exists k.
Qed.

(** X12: when the first candidate is free -- in particular on an empty
    store -- the loop body never runs: the request with a destination
    is answered for every fuel, zero included, with that candidate, after
    exactly six draws. *)
Theorem encurtar_url_primeiro_candidato (fuel : nat) (req : request) (st : state) d u :
  get_json req = PyDict d → dict_get "url_longa" d = Some u →
  url_db st !! candidato tape (rng_pos st) 0 = None →
  encurtar_url tape fuel req st
  = Some (Created u (host_url req) (candidato tape (rng_pos st) 0),
          State (<[candidato tape (rng_pos st) 0 := u]> (url_db st))
                (S (links_criados_total st)) (redirecionamentos_total st)
                (rng_pos st + 6)).
Proof.
  intros Hd Hget Hfree. unfold encurtar_url.
  rewrite Hd, sem_url_longa_dict. unfold py_getitem.
  rewrite Hget, gerar_padrao, enquanto_colide_eq, Hfree. reflexivity.
Qed.

(** X13: there is no deduplication by destination: two successful
    shortens of the same request, one right after the other, answer with
    two different codes, and both codes are bound to the destination
    afterwards. *)
Theorem sem_deduplicacao (fuel : nat) (req : request) (st : state)
    u1 h1 c1 u2 h2 c2 st' :
  executar tape fuel [Encurtar req; Encurtar req] st
  = Some ([Created u1 h1 c1; Created u2 h2 c2], st') →
  c1 ≠ c2 ∧ u1 = u2
  ∧ url_db st' !! c1 = Some u1 ∧ url_db st' !! c2 = Some u1.
Proof.
  intros H.
  apply executar_cons in H as (r1 & st1 & rs1 & H1 & H & E1).
  apply executar_cons in H as (r2 & st2 & rs2 & H2 & H & E2).
  subst rs1. simpl in H. inversion H; subst. inversion E1; subst. clear H E1.
  simpl in H1, H2.
  apply encurtar_url_inv in H1
    as [(_ & Hr & _) | [(_ & _ & Hr & _) | (d & v & k & Hd & Hget & _ & Hr & Hfree & _ & ->)]];
    try discriminate Hr.
  apply encurtar_url_inv in H2
    as [(_ & Hr2 & _) | [(_ & _ & Hr2 & _) | (d' & v' & k' & Hd' & Hget' & _ & Hr2 & Hfree' & _ & ->)]];
    try discriminate Hr2.
  injection Hr as -> _ ->. injection Hr2 as -> _ ->.
  rewrite Hd in Hd'. injection Hd' as <-. rewrite Hget in Hget'.
  injection Hget' as <-. cbn [url_db rng_pos] in *.
  assert (Hne : candidato tape (rng_pos st) k
                ≠ candidato tape (rng_pos st + 6 * S k) k').
  { intros Heq. rewrite <- Heq, lookup_insert_eq in Hfree'. discriminate Hfree'. }
  split_and!; [exact Hne | reflexivity | | apply lookup_insert_eq].
  rewrite lookup_insert_ne by (intros E; now apply Hne).
  apply lookup_insert_eq.
Qed.

(** X14: [encurtar_url] changes the state only when it answers 201: any
    other answer (400 or 500) leaves the store, both counters and the
    random source exactly as they were, and a 201 never touches
    [redirecionamentos_total]. *)
Theorem encurtar_url_so_muda_no_201 (fuel : nat) (req : request) (st : state) r st' :
  encurtar_url tape fuel req st = Some (r, st') →
  (criado r = false → st' = st)
  ∧ redirecionamentos_total st' = redirecionamentos_total st
  ∧ (criado r = true →
     links_criados_total st' = S (links_criados_total st)
     ∧ (rng_pos st < rng_pos st')%nat).
Proof.
  intros H.
  apply encurtar_url_inv in H
    as [(_ & -> & ->) | [(_ & _ & -> & ->) | (d & u & k & _ & _ & _ & -> & _ & _ & ->)]];
    split_and!; try done.
  intros _. simpl. split; [reflexivity | lia].
Qed.

End ServicoMais.

(** * The further properties at concrete requests *)

Lemma gerar_codigo_curto_sobrejetivo_witness :
  gerar_codigo_curto (tape_de "Zz9aB0" 3) (Some 6%Z) 3 = (Ok "Zz9aB0", 9%nat).
Proof.
  apply (gerar_codigo_curto_sobrejetivo "Zz9aB0" 3).
  repeat constructor.
Defined.

Lemma gerar_codigo_curto_concatena_witness :
  gerar_codigo_curto tape_sete (Some (-2)%Z) 5 = (Ok "", 5%nat)
  ∧ ∃ s1 s2,
      gerar_codigo_curto tape_sete (Some 2%Z) 0 = (Ok s1, 2%nat)
      ∧ gerar_codigo_curto tape_sete (Some 4%Z) 2 = (Ok s2, 6%nat)
      ∧ gerar_codigo_curto tape_sete (Some 6%Z) 0 = (Ok (s1 ++ s2)%string, 6%nat).
Proof.
  split.
  - apply (gerar_codigo_curto_concatena tape_sete (-2)%Z 0%Z 5). lia.
  - apply (gerar_codigo_curto_concatena tape_sete 2%Z 4%Z 0); lia.
Defined.

Lemma url_db_sao_os_criados_witness :
  url_db estado_final !! "QX4bip" = Some (PyStr "")
  ∧ listar_links estado_final = (Links (url_db estado_final), estado_final).
Proof.
  destruct (url_db_sao_os_criados tape_sete 0 corrida (estado_inicial 0)
              respostas estado_final corrida_executa) as [Hdb Hlist].
  split; [| exact Hlist].
  apply Hdb. right. exists host. unfold respostas.
  apply list_elem_of_In. simpl. auto 10.
Defined.

Lemma codigos_distintos_witness :
  NoDup (codigos respostas)
  ∧ ∀ c, c ∈ codigos respostas →
         url_db (estado_inicial 0) !! c = None ∧ bem_formado c = true.
Proof.
  exact (codigos_distintos tape_sete 0 corrida (estado_inicial 0)
           respostas estado_final corrida_executa).
Defined.

Lemma tamanho_url_db_witness :
  size (url_db estado_final) = 2%nat
  ∧ size (url_db estado_final) = links_criados_total estado_final.
Proof.
  destruct (tamanho_url_db tape_sete 0 corrida (estado_inicial 0)
              respostas estado_final corrida_executa) as [Hsize Hinv].
  split; [exact Hsize | apply Hinv; reflexivity].
Defined.

Lemma chave_mal_formada_nao_encontrada_witness :
  url_db estado_final !! "api-links" = None
  ∧ redirecionar "api-links" estado_final = (NotFound, estado_final).
Proof.
  destruct (chave_mal_formada_nao_encontrada tape_sete 0 0 corrida respostas
              estado_final corrida_executa) as [_ Hmal].
  apply Hmal. reflexivity.
Defined.

Lemma encurtar_url_sem_objeto_witness :
  ∃ r,
    encurtar_url tape_sete 0 (Request host (PyList [PyStr "url_longa"]))
                 (estado_inicial 0)
    = Some (r, estado_inicial 0)
    ∧ r ≠ BadRequest.
Proof.
  destruct (encurtar_url_sem_objeto tape_sete 0
              (Request host (PyList [PyStr "url_longa"])) (estado_inicial 0))
    as (r & H & _ & Hiff); [intros d; discriminate |].
  exists r. split; [exact H |].
  intros Hr. apply Hiff in Hr as [Hf | [(l & Hl & Hno) | (s & Hs & _)]].
  - discriminate Hf.
  - injection Hl as <-. apply Hno. apply list_elem_of_In. now left.
  - discriminate Hs.
Defined.

Lemma destino_qualquer_valor_witness :
  ∃ c,
    url_db (estado_com "ahovCJ" PyNone) !! c = Some PyNone
    ∧ redirecionar c (estado_com "ahovCJ" PyNone)
      = (NotFound, estado_com "ahovCJ" PyNone).
Proof.
  destruct (destino_qualquer_valor tape_sete 0 (pedido PyNone) (estado_inicial 0)
              [("url_longa", PyNone)] PyNone
              (Created PyNone host "ahovCJ") (estado_com "ahovCJ" PyNone)
              eq_refl eq_refl)
    as (c & _ & Hdb & Hr); [vm_compute; reflexivity |].
  exists c. split; [exact Hdb | exact Hr].
Defined.

Lemma resposta_criada_witness :
  ∃ c, url_curta (Created url_a host "ahovCJ") = Some (host ++ c)%string
       ∧ String.length c = 6%nat.
Proof.
  destruct (resposta_criada tape_sete 0 (pedido url_a) (estado_inicial 0)
              (Created url_a host "ahovCJ") (estado_com "ahovCJ" url_a)
              encurtar_url_a eq_refl)
    as (d & u & c & _ & _ & _ & Hcurta & Hlen & _).
  exists c. split; [exact Hcurta | exact Hlen].
Defined.

Lemma encurtar_url_primeiro_candidato_witness :
  encurtar_url tape_zero 0 (pedido url_a) (estado_inicial 0)
  = Some (Created url_a host "aaaaaa", estado_com "aaaaaa" url_a)
  ∧ encurtar_url tape_zero 7 (pedido url_a) (estado_inicial 0)
    = Some (Created url_a host "aaaaaa", estado_com "aaaaaa" url_a).
Proof.
  split.
  - exact (encurtar_url_primeiro_candidato tape_zero 0 (pedido url_a)
             (estado_inicial 0) [("url_longa", url_a)] url_a
             eq_refl eq_refl eq_refl).
  - exact (encurtar_url_primeiro_candidato tape_zero 7 (pedido url_a)
             (estado_inicial 0) [("url_longa", url_a)] url_a
             eq_refl eq_refl eq_refl).
Defined.

Lemma sem_deduplicacao_witness :
  "ahovCJ" ≠ "QX4bip"
  ∧ url_a = url_a
  ∧ url_db (State (<["QX4bip" := url_a]> (<["ahovCJ" := url_a]> ∅)) 2 0 12)
      !! "ahovCJ" = Some url_a
  ∧ url_db (State (<["QX4bip" := url_a]> (<["ahovCJ" := url_a]> ∅)) 2 0 12)
      !! "QX4bip" = Some url_a.
Proof.
  apply (sem_deduplicacao tape_sete 0 (pedido url_a) (estado_inicial 0)
           url_a host "ahovCJ" url_a host "QX4bip").
  vm_compute. reflexivity.
Defined.

Lemma encurtar_url_so_muda_no_201_witness :
  redirecionamentos_total (estado_com "ahovCJ" url_a)
  = redirecionamentos_total (estado_inicial 0)
  ∧ links_criados_total (estado_com "ahovCJ" url_a) = 1%nat.
Proof.
  destruct (encurtar_url_so_muda_no_201 tape_sete 0 (pedido url_a) (estado_inicial 0)
              (Created url_a host "ahovCJ") (estado_com "ahovCJ" url_a)
              encurtar_url_a) as (_ & Hred & Hcriado).
  split; [exact Hred | now apply Hcriado].
Defined.
